(** * The ROI calculator of the Healthdex page (screens/DexSgOurDexes)

    A shallow embedding of the calculator that lives inside the
    [DexSgOurDexes] React component: the preset tables, the three cost
    functions, the event handlers that drive the component state and the
    two render conditions of the result grid.

    JavaScript numbers are IEEE 754 binary64 values; they are modelled by
    Rocq's primitive [float], whose operations are specified against
    [SpecFloat] by the axioms of [FloatAxioms].  The object held in
    [calculatorValues] is a finite map from property names to numbers. *)

From Stdlib Require Import ZArith Floats Bool Ascii String Lia.
From stdpp Require Import gmap strings.

Set Warnings "-inexact-float".
Local Open Scope float_scope.

(** ** JavaScript numbers *)

Module JS.

(** [ToBoolean] on a Number: [NaN], [+0] and [-0] are falsy. *)
Definition truthy (x : float) : bool := negb (is_nan x || is_zero x).

(** [x || y] on Numbers. *)
Definition or_else (x y : float) : float := if truthy x then x else y.

(** [x > y], evaluated as [y < x]. *)
Definition gt (x y : float) : bool := y <? x.

(** *** [parseFloat]

    The built-in follows ECMA-262: leading white space is dropped, the
    longest prefix that is a [StrDecimalLiteral] is read, and its
    mathematical value is rounded to the nearest binary64 number; [NaN]
    when no prefix is a literal.  The text is a string of 8-bit code
    units. *)

Definition code (c : ascii) : Z := Z.of_N (N_of_ascii c).

Definition is_white_space (c : ascii) : bool :=
  let n := code c in
  ((9 <=? n) && (n <=? 13) || (n =? 32) || (n =? 160))%Z.

Fixpoint trim_start (s : string) : string :=
  match s with
  | String c s' => if is_white_space c then trim_start s' else s
  | EmptyString => s
  end.

Definition digit_of (c : ascii) : option Z :=
  let n := code c in
  if ((48 <=? n) && (n <=? 57))%Z then Some (n - 48)%Z else None.

(** Reads a maximal run of decimal digits in front of [s], continuing
    the numeral [acc]; returns the numeral, the number of digits read
    and the rest of the text. *)
Fixpoint read_digits (s : string) (acc : Z) (n : Z) : Z * Z * string :=
  match s with
  | String c s' =>
      match digit_of c with
      | Some d => read_digits s' (10 * acc + d)%Z (n + 1)%Z
      | None => (acc, n, s)
      end
  | EmptyString => (acc, n, s)
  end.

(** [ExponentPart], when one follows; otherwise the exponent is 0 and
    nothing is consumed. *)
Definition read_exponent (s : string) : Z :=
  match s with
  | String c s' =>
      if ((code c =? 101) || (code c =? 69))%Z then
        let '(neg, s'') :=
          match s' with
          | String "+" t => (false, t)
          | String "-" t => (true, t)
          | _ => (false, s')
          end in
        let '(e, n, _) := read_digits s'' 0%Z 0%Z in
        if (n =? 0)%Z then 0%Z else if neg then (- e)%Z else e
      else 0%Z
  | EmptyString => 0%Z
  end.

(** The binary64 number nearest to [m * 10 ^ e10], ties to even. *)
Definition round_decimal (neg : bool) (m e10 : Z) : float :=
  match m with
  | Zpos p =>
      SF2Prim
        (if (0 <=? e10)%Z
         then binary_normalize prec emax
                (cond_Zopp neg (Zpos p * 10 ^ e10)%Z) 0%Z false
         else SFdiv prec emax (S754_finite neg p 0%Z)
                (S754_finite false (Z.to_pos (10 ^ (- e10))) 0%Z))
  | _ => if neg then neg_zero else 0
  end.

Definition read_unsigned (neg : bool) (s : string) : float :=
  if String.prefix "Infinity" s then (if neg then neg_infinity else infinity)
  else
    let '(ip, ni, r1) := read_digits s 0%Z 0%Z in
    match r1 with
    | String "." r1' =>
        let '(fp, nf, r2) := read_digits r1' ip 0%Z in
        if ((ni =? 0) && (nf =? 0))%Z then nan
        else round_decimal neg fp (read_exponent r2 - nf)
    | _ =>
        if (ni =? 0)%Z then nan
        else round_decimal neg ip (read_exponent r1)
    end.

Definition parseFloat (text : string) : float :=
  match trim_start text with
  | String "+" s => read_unsigned false s
  | String "-" s => read_unsigned true s
  | s => read_unsigned false s
  end.

End JS.

(** ** The calculator tables *)

(** An object with numeric properties.  Reading a property that is absent
    gives [undefined], which arithmetic turns into [NaN]. *)
Abbreviation Values := (gmap string float).

Definition prop (values : Values) (k : string) : float :=
  default nan (values !! k).

Notation "v .[ k ]" := (prop v k%string)
  (at level 1, left associativity, format "v .[ k ]").

(** [const defaultValues = { ... }] *)
Definition defaultValues : Values :=
  list_to_map
    [ ("num_partners"%string, 5);
      ("avg_tx_per_partner"%string, 1000);
      ("int_build_cost_per_partner"%string, 15000);
      ("int_maint_pct"%string, 20);
      ("api_fee_per_tx"%string, 0.05);
      ("compliance_cost_annual"%string, 50000);
      ("error_penalty_rate"%string, 15);
      ("error_rate_legacy"%string, 3);
      ("error_rate_platform"%string, 0.5);
      ("onboard_days_legacy"%string, 30);
      ("onboard_days_platform"%string, 5);
      ("daily_revenue_per_partner"%string, 2000) ].

(** [const scenarios = { conservative: {...defaultValues, ...},
    optimistic: {...defaultValues, ...} }]: the spread copies the default
    table and the three listed properties overwrite their entries. *)
Module scenarios.

Definition conservative : Values :=
  <["daily_revenue_per_partner"%string := 1000]>
    (<["avg_tx_per_partner"%string := 500]>
       (<["num_partners"%string := 3]> defaultValues)).

Definition optimistic : Values :=
  <["daily_revenue_per_partner"%string := 3000]>
    (<["avg_tx_per_partner"%string := 2000]>
       (<["num_partners"%string := 10]> defaultValues)).

End scenarios.

(** The keys of [metricExplanations], in the order the grid maps over. *)
Definition metricKeys : list string :=
  [ "totalBenefit"; "costSaving"; "revenueSaving"; "riskSaving" ]%string.

(** The names of the twelve properties of [defaultValues]. *)
Definition fieldNames : list string :=
  [ "num_partners"; "avg_tx_per_partner"; "int_build_cost_per_partner";
    "int_maint_pct"; "api_fee_per_tx"; "compliance_cost_annual";
    "error_penalty_rate"; "error_rate_legacy"; "error_rate_platform";
    "onboard_days_legacy"; "onboard_days_platform";
    "daily_revenue_per_partner" ]%string.

(** ** The calculator functions *)

(** What [calculateLegacyCosts] and [calculatePlatformCosts] return. *)
Record Costs := { total : float; error_cost : float }.

(** What [calculateBenefits] returns and [roiResults] holds. *)
Record Results := {
  totalBenefit : float;
  costSaving : float;
  revenueSaving : float;
  riskSaving : float }.

Definition calculateLegacyCosts (values : Values) : Costs :=
  let legacy_int_build :=
    values.["num_partners"] * values.["int_build_cost_per_partner"] in
  let legacy_int_maint :=
    legacy_int_build * (values.["int_maint_pct"] / 100) in
  let legacy_api_fees :=
    values.["num_partners"] * values.["avg_tx_per_partner"] * 12
    * values.["api_fee_per_tx"] in
  let legacy_compliance := values.["compliance_cost_annual"] in
  let legacy_error_cost :=
    values.["num_partners"] * values.["avg_tx_per_partner"] * 12
    * (values.["error_rate_legacy"] / 100) * values.["error_penalty_rate"] in
  {| total := legacy_int_build + legacy_int_maint + legacy_api_fees
              + legacy_compliance + legacy_error_cost;
     error_cost := legacy_error_cost |}.

Definition calculatePlatformCosts (values : Values) : Costs :=
  let platform_sub_fee := 10000 + (values.["num_partners"] * 1000) in
  let platform_tx_fee :=
    values.["num_partners"] * values.["avg_tx_per_partner"] * 12 * 0.01 in
  let platform_compliance := values.["compliance_cost_annual"] * 0.4 in
  let platform_error_cost :=
    values.["num_partners"] * values.["avg_tx_per_partner"] * 12
    * (values.["error_rate_platform"] / 100) * values.["error_penalty_rate"] in
  {| total := platform_sub_fee + platform_tx_fee + platform_compliance
              + platform_error_cost;
     error_cost := platform_error_cost |}.

Definition calculateBenefits (values : Values) : Results :=
  let legacyCosts := calculateLegacyCosts values in
  let platformCosts := calculatePlatformCosts values in
  let onboarding_time_saved :=
    values.["onboard_days_legacy"] - values.["onboard_days_platform"] in
  let revenue_uplift :=
    values.["num_partners"] * values.["daily_revenue_per_partner"]
    * onboarding_time_saved in
  let cost_saving := total legacyCosts - total platformCosts in
  let risk_saving := error_cost legacyCosts - error_cost platformCosts in
  {| totalBenefit := revenue_uplift + cost_saving + risk_saving;
     costSaving := cost_saving;
     revenueSaving := revenue_uplift;
     riskSaving := risk_saving |}.

(** ** The component state and its handlers *)

(** The five [useState] cells of [DexSgOurDexes]. *)
Record State := {
  isMenuOpen : bool;
  calculatorValues : Values;
  scenario : string;
  roiResults : Results;
  selectedMetric : option string }.

(** The arguments of the five [useState] calls. *)
Definition initialState : State :=
  {| isMenuOpen := false;
     calculatorValues := defaultValues;
     scenario := "default";
     roiResults :=
       {| totalBenefit := 0; costSaving := 0;
          revenueSaving := 0; riskSaving := 0 |};
     selectedMetric := None |}.

(** The state setters.  [setCalculatorValues] is called with the next
    value by [handleScenarioChange] and with an updater [prev => ...] by
    [handleInputChange]; both forms are given. *)
Definition setCalculatorValues (values : Values) (st : State) : State :=
  {| isMenuOpen := isMenuOpen st;
     calculatorValues := values;
     scenario := scenario st;
     roiResults := roiResults st;
     selectedMetric := selectedMetric st |}.

Definition updateCalculatorValues (f : Values -> Values) (st : State) : State :=
  setCalculatorValues (f (calculatorValues st)) st.

Definition setScenario (s : string) (st : State) : State :=
  {| isMenuOpen := isMenuOpen st;
     calculatorValues := calculatorValues st;
     scenario := s;
     roiResults := roiResults st;
     selectedMetric := selectedMetric st |}.

Definition setRoiResults (r : Results) (st : State) : State :=
  {| isMenuOpen := isMenuOpen st;
     calculatorValues := calculatorValues st;
     scenario := scenario st;
     roiResults := r;
     selectedMetric := selectedMetric st |}.

Definition setSelectedMetric (k : option string) (st : State) : State :=
  {| isMenuOpen := isMenuOpen st;
     calculatorValues := calculatorValues st;
     scenario := scenario st;
     roiResults := roiResults st;
     selectedMetric := k |}.

Definition handleCalculate (st : State) : State :=
  let results := calculateBenefits (calculatorValues st) in
  setRoiResults results st.

Definition handleScenarioChange (newScenario : string) (st : State) : State :=
  let st := setScenario newScenario st in
  if String.eqb newScenario "conservative" then
    setCalculatorValues scenarios.conservative st
  else if String.eqb newScenario "optimistic" then
    setCalculatorValues scenarios.optimistic st
  else
    setCalculatorValues defaultValues st.

(** [e.target] carries the [name] attribute of the input and its text. *)
Definition handleInputChange (name value : string) (st : State) : State :=
  let st :=
    updateCalculatorValues
      (fun prev => <[name := JS.or_else (JS.parseFloat value) 0]> prev) st in
  setScenario "custom" st.

(** The [onClick] of a metric card:
    [() => setSelectedMetric(selectedMetric === key ? null : key)]. *)
Definition toggleMetricDetail (key : string) (st : State) : State :=
  setSelectedMetric
    (if bool_decide (selectedMetric st = Some key) then None else Some key) st.

(** ** What is rendered *)

(** [roiResults.totalBenefit > 0 && (<div className="grid ...">)] *)
Definition gridShown (st : State) : bool :=
  JS.gt (totalBenefit (roiResults st)) 0.

(** The cards inside the grid, one for each entry of
    [metricExplanations]:
    [Object.entries(metricExplanations).map(([key, metric]) => ...)]. *)
Definition cardsShown (st : State) : list string :=
  if gridShown st then metricKeys else [].

(** Inside the card of [key]:
    [selectedMetric === key && (<div> Formula ... </div>)] *)
Definition detailShown (st : State) (key : string) : bool :=
  bool_decide (key ∈ cardsShown st)
  && bool_decide (selectedMetric st = Some key).

(** ** The formulas as the specification words them *)

(** Every one of the twelve fields is a zero. *)
Definition all_zero (values : Values) : bool :=
  forallb (fun k => is_zero (prop values k)) fieldNames.

(** The parameter set whose twelve fields are 0. *)
Definition zeroValues : Values :=
  list_to_map (map (fun k => (k, 0)) fieldNames).

(** [legacy_total] of the specification, read with JavaScript's
    precedence and left-to-right association. *)
Definition legacy_total_spec (values : Values) : float :=
  values.["num_partners"] * values.["int_build_cost_per_partner"]
  + values.["num_partners"] * values.["int_build_cost_per_partner"]
    * (values.["int_maint_pct"] / 100)
  + values.["num_partners"] * values.["avg_tx_per_partner"] * 12
    * values.["api_fee_per_tx"]
  + values.["compliance_cost_annual"]
  + values.["num_partners"] * values.["avg_tx_per_partner"] * 12
    * (values.["error_rate_legacy"] / 100) * values.["error_penalty_rate"].

(** [platform_total] of the specification. *)
Definition platform_total_spec (values : Values) : float :=
  (10000 + values.["num_partners"] * 1000)
  + values.["num_partners"] * values.["avg_tx_per_partner"] * 12 * 0.01
  + values.["compliance_cost_annual"] * 0.4
  + values.["num_partners"] * values.["avg_tx_per_partner"] * 12
    * (values.["error_rate_platform"] / 100) * values.["error_penalty_rate"].

(** The three properties the two scenario presets override. *)
Definition overridden : list string :=
  [ "num_partners"; "avg_tx_per_partner"; "daily_revenue_per_partner" ]%string.

(** A parameter set with the platform slower to onboard than the legacy
    integration (40 days against 30) and no partner at all. *)
Definition slowPlatformNoPartner : Values :=
  <["num_partners"%string := 0]>
    (<["onboard_days_platform"%string := 40]> defaultValues).

(** The same with the five partners of the default preset. *)
Definition slowPlatform : Values :=
  <["onboard_days_platform"%string := 40]> defaultValues.

(** The same with "-1" typed into the partners input. *)
Definition slowPlatformMinusOne : Values :=
  <["num_partners"%string := -1]> slowPlatform.

(** A state the page reaches with a loss to show: "-100" typed into the
    partners input, then Calculate ROI. *)
Definition lossState : State :=
  handleCalculate (handleInputChange "num_partners" "-100" initialState).

(** ** The rest of the component *)

Definition setIsMenuOpen (b : bool) (st : State) : State :=
  {| isMenuOpen := b;
     calculatorValues := calculatorValues st;
     scenario := scenario st;
     roiResults := roiResults st;
     selectedMetric := selectedMetric st |}.

(** The [onClick] of the menu button:
    [() => setIsMenuOpen(!isMenuOpen)]. *)
Definition toggleMenu (st : State) : State :=
  setIsMenuOpen (negb (isMenuOpen st)) st.

(** The names the three scenario buttons pass to [handleScenarioChange],
    in the order the buttons are rendered. *)
Definition scenarioButtons : list string :=
  [ "conservative"; "default"; "optimistic" ]%string.

(** The [className] of a scenario button:
    [`${scenario === name ? "bg-blue-300" : "bg-transparent"} text-white
    border border-white`]. *)
Definition scenarioButtonClass (st : State) (name : string) : string :=
  ((if String.eqb (scenario st) name then "bg-blue-300" else "bg-transparent")
   ++ " text-white border border-white")%string.

(** The [name] attributes of the three inputs, in the order they are
    rendered. *)
Definition inputNames : list string :=
  [ "num_partners"; "avg_tx_per_partner"; "int_build_cost_per_partner" ]%string.

(** The part of a card's [className] that depends on the state:
    [selectedMetric === key ? "ring-2 ring-blue-300" : ""]. *)
Definition cardRing (st : State) (key : string) : string :=
  if bool_decide (selectedMetric st = Some key)
  then "ring-2 ring-blue-300"%string else ""%string.

(** *** The events of the page *)

(** What the user can do to the calculator and the menu. *)
Inductive Event :=
  | ScenarioClick (name : string)
  | InputChange (name value : string)
  | CalculateClick
  | CardClick (key : string)
  | MenuClick.

(** The handler each element is wired to. *)
Definition handle (ev : Event) (st : State) : State :=
  match ev with
  | ScenarioClick name => handleScenarioChange name st
  | InputChange name value => handleInputChange name value st
  | CalculateClick => handleCalculate st
  | CardClick key => toggleMetricDetail key st
  | MenuClick => toggleMenu st
  end.

(** The elements a state renders: the three scenario buttons, the three
    inputs, the calculate button and the menu button always, a card only
    inside the grid. *)
Definition offered (st : State) (ev : Event) : bool :=
  match ev with
  | ScenarioClick name => bool_decide (name ∈ scenarioButtons)
  | InputChange name _ => bool_decide (name ∈ inputNames)
  | CardClick key => bool_decide (key ∈ cardsShown st)
  | CalculateClick | MenuClick => true
  end.

(** The states the page can be brought into. *)
Inductive reachable : State -> Prop :=
  | reachable_init : reachable initialState
  | reachable_step (st : State) (ev : Event) :
      reachable st -> offered st ev = true -> reachable (handle ev st).

(** Runs a list of events, first to last; [None] when one of them is not
    offered by the state it meets. *)
Fixpoint run (evs : list Event) (st : State) : option State :=
  match evs with
  | [] => Some st
  | ev :: evs' => if offered st ev then run evs' (handle ev st) else None
  end.

(** *** The fields each figure is computed from *)

Definition revenueFields : list string :=
  [ "num_partners"; "daily_revenue_per_partner"; "onboard_days_legacy";
    "onboard_days_platform" ]%string.

Definition riskFields : list string :=
  [ "num_partners"; "avg_tx_per_partner"; "error_rate_legacy";
    "error_rate_platform"; "error_penalty_rate" ]%string.

(** Two objects hold the same value, or both none, under each name of
    [ks]. *)
Definition agree (ks : list string) (v1 v2 : Values) : Prop :=
  Forall (fun k => v1 !! k = v2 !! k) ks.

(** *** The values the page can hold *)

(** The object holds the twelve fields and nothing else, each a number
    that [parseFloat(value) || 0] or a preset can give. *)
Definition well_formed (values : Values) : Prop :=
  (forall k, is_Some (values !! k) <-> k ∈ fieldNames)
  /\ (forall k v, values !! k = Some v -> JS.truthy v = true \/ v = 0).


(** *** The menu *)

(** The titles of [navLinks]. *)
Definition navLinks : list string :=
  [ "Our Dexes"; "Services"; "About Us"; "Support"; "Resources" ]%string.

(** [isMenuOpen && (<div> {navLinks.map(...)} </div>)]: the links the
    mobile menu lists. *)
Definition menuLinksShown (st : State) : list string :=
  if isMenuOpen st then navLinks else [].

(** ** Signs and shifts of binary64 numbers *)

Module Binary64.

Local Open Scope Z_scope.

(** The sign of a number that is not [NaN]. *)
Definition signed (s : bool) (x : spec_float) : Prop :=
  match x with
  | S754_zero s' | S754_infinity s' | S754_finite s' _ _ => s' = s
  | S754_nan => False
  end.

(** The sign of a number that is neither [NaN] nor a zero. *)
Definition signed_nonzero (s : bool) (x : spec_float) : Prop :=
  match x with
  | S754_infinity s' | S754_finite s' _ _ => s' = s
  | _ => False
  end.

(** The number of bits [shr_fexp] drops from [m * 2 ^ e]. *)
Definition shift_of (m e : Z) : Z :=
  Z.max 0 (fexp prec emax (Zdigits2 m + e) - e).

End Binary64.

(** * Facts about binary64 arithmetic

    The lemmas on [spec_float] are proved from the definitions of
    [SpecFloat]; the ones on [float] follow through [FloatAxioms]. *)

Module FloatFacts.

Import Binary64.
Local Open Scope Z_scope.

Lemma digits2_pos_size (p : positive) : digits2_pos p = Pos.size p.
Proof. induction p; cbn; congruence. Qed.

Lemma digits2_pos_bounds (p : positive) :
  2 ^ (Zpos (digits2_pos p) - 1) <= Zpos p < 2 ^ Zpos (digits2_pos p).
Proof.
  rewrite digits2_pos_size.
  pose proof (Pos.size_gt p) as Hgt. pose proof (Pos.size_le p) as Hle.
  apply Pos2Z.pos_lt_pos in Hgt. apply Pos2Z.pos_le_pos in Hle.
  rewrite Pos2Z.inj_pow in Hgt, Hle.
  split; [|exact Hgt].
  replace (Zpos (Pos.size p)) with (Z.succ (Zpos (Pos.size p) - 1)) in Hle by lia.
  rewrite Z.pow_succ_r in Hle by lia. lia.
Qed.

Lemma shr_1_m (r : shr_record) :
  0 <= shr_m r -> shr_m (shr_1 r) = shr_m r / 2.
Proof.
  destruct r as [m b s]; cbn [shr_m]. intros Hm.
  destruct m as [|[p|p|]|p]; cbn [shr_1 shr_m]; try lia; try reflexivity.
  - apply Z.div_unique with (r := 1); lia.
  - apply Z.div_unique with (r := 0); lia.
Qed.

Lemma iter_shr_1_m (n : positive) : forall r : shr_record,
  0 <= shr_m r -> shr_m (SpecFloat.iter_pos shr_1 n r) = shr_m r / 2 ^ Zpos n.
Proof.
  induction n as [n IH|n IH|]; intros r Hr; cbn [SpecFloat.iter_pos].
  - assert (H1 : 0 <= shr_m (shr_1 r)).
    { rewrite shr_1_m by assumption. apply Z.div_pos; lia. }
    assert (H2 : 0 <= shr_m (SpecFloat.iter_pos shr_1 n (shr_1 r))).
    { rewrite IH by assumption. apply Z.div_pos; lia. }
    rewrite IH, IH, shr_1_m by assumption.
    rewrite !Z.div_div by lia.
    f_equal. replace (Zpos n~1) with (1 + Zpos n + Zpos n) by lia.
    rewrite !Z.pow_add_r by lia. change (2 ^ 1) with 2. ring.
  - assert (H2 : 0 <= shr_m (SpecFloat.iter_pos shr_1 n r)).
    { rewrite IH by assumption. apply Z.div_pos; lia. }
    rewrite IH, IH by assumption.
    rewrite !Z.div_div by lia.
    f_equal. replace (Zpos n~0) with (Zpos n + Zpos n) by lia.
    now rewrite Z.pow_add_r by lia.
  - rewrite shr_1_m by assumption. reflexivity.
Qed.

Lemma shr_m_spec (r : shr_record) (e n : Z) :
  0 <= shr_m r ->
  shr_m (fst (shr r e n)) = shr_m r / 2 ^ Z.max 0 n
  /\ snd (shr r e n) = e + Z.max 0 n.
Proof.
  intros Hr. destruct n as [|p|p]; cbn [shr fst snd].
  - rewrite Z.div_1_r. lia.
  - rewrite iter_shr_1_m by assumption. rewrite Z.max_r by lia. lia.
  - rewrite Z.div_1_r. lia.
Qed.

Lemma shr_record_of_loc_m (m : Z) (l : location) :
  shr_m (shr_record_of_loc m l) = m.
Proof. destruct l as [|[]]; reflexivity. Qed.

Lemma div_pow2_shift_nonneg (m m' e : Z) :
  0 <= m -> 0 <= m / 2 ^ shift_of m' e.
Proof.
  intros Hm. apply Z.div_pos; [assumption|].
  apply Z.pow_pos_nonneg; unfold shift_of; lia.
Qed.

Lemma shr_fexp_spec (m e : Z) (l : location) :
  0 <= m ->
  shr_m (fst (shr_fexp prec emax m e l)) = m / 2 ^ shift_of m e
  /\ snd (shr_fexp prec emax m e l) = e + shift_of m e.
Proof.
  intros Hm. unfold shr_fexp, shift_of.
  pose proof (shr_m_spec (shr_record_of_loc m l) e
                (fexp prec emax (Zdigits2 m + e) - e)) as H.
  rewrite shr_record_of_loc_m in H. now apply H.
Qed.

Lemma shift_of_small (m e : Z) :
  0 < m -> -1074 <= e -> 2 ^ shift_of m e <= m.
Proof.
  intros Hm He. destruct m as [|p|p]; try lia.
  unfold shift_of, fexp, emin, prec, emax. cbn [Zdigits2].
  pose proof (digits2_pos_bounds p) as [Hlo _].
  assert (Hd : 1 <= Zpos (digits2_pos p)) by lia.
  etransitivity; [|exact Hlo].
  apply Z.pow_le_mono_r; lia.
Qed.

Lemma round_nearest_even_bounds (m : Z) (l : location) :
  m <= round_nearest_even m l <= m + 1.
Proof.
  destruct l as [|[]]; cbn [round_nearest_even]; try lia.
  destruct (Z.even m); lia.
Qed.

Lemma binary_round_aux_signed (s : bool) (m e : Z) (l : location) :
  0 <= m -> signed s (binary_round_aux prec emax s m e l).
Proof.
  intros Hm. unfold binary_round_aux.
  destruct (shr_fexp_spec m e l Hm) as [H1 _].
  destruct (shr_fexp prec emax m e l) as [r1 e1]. cbn [fst] in H1.
  pose proof (round_nearest_even_bounds (shr_m r1) (loc_of_shr_record r1)) as Hr.
  set (m2 := round_nearest_even _ _) in *.
  assert (H1' : 0 <= shr_m r1) by (rewrite H1; now apply div_pow2_shift_nonneg).
  assert (Hm2 : 0 <= m2) by lia.
  destruct (shr_fexp_spec m2 e1 loc_Exact Hm2) as [H2 _].
  destruct (shr_fexp prec emax m2 e1 loc_Exact) as [r2 e2]. cbn [fst] in H2.
  assert (H2' : 0 <= shr_m r2) by (rewrite H2; now apply div_pow2_shift_nonneg).
  destruct (shr_m r2) as [|p|p]; cbn [signed]; try lia; try reflexivity.
  destruct (e2 <=? emax - prec); reflexivity.
Qed.

Lemma binary_round_aux_nonzero (s : bool) (m e : Z) (l : location) :
  0 < m -> -1074 <= e ->
  signed_nonzero s (binary_round_aux prec emax s m e l).
Proof.
  intros Hm He. unfold binary_round_aux.
  destruct (shr_fexp_spec m e l ltac:(lia)) as [H1 E1].
  destruct (shr_fexp prec emax m e l) as [r1 e1]. cbn [fst snd] in H1, E1.
  pose proof (round_nearest_even_bounds (shr_m r1) (loc_of_shr_record r1)) as Hr.
  set (m2 := round_nearest_even _ _) in *.
  pose proof (shift_of_small m e Hm He) as Hs.
  assert (H1' : 1 <= shr_m r1).
  { rewrite H1. apply Z.div_le_lower_bound; [|lia].
    apply Z.pow_pos_nonneg; unfold shift_of; lia. }
  assert (Hm2 : 0 < m2) by lia.
  assert (He1 : -1074 <= e1) by (unfold shift_of in E1; lia).
  destruct (shr_fexp_spec m2 e1 loc_Exact ltac:(lia)) as [H2 _].
  destruct (shr_fexp prec emax m2 e1 loc_Exact) as [r2 e2]. cbn [fst] in H2.
  pose proof (shift_of_small m2 e1 Hm2 He1) as Hs2.
  assert (H2' : 1 <= shr_m r2).
  { rewrite H2. apply Z.div_le_lower_bound; [|lia].
    apply Z.pow_pos_nonneg; unfold shift_of; lia. }
  destruct (shr_m r2) as [|p|p]; cbn [signed_nonzero]; try lia.
  destruct (e2 <=? emax - prec); reflexivity.
Qed.

Lemma SFmul_pos_neg (x y : spec_float) :
  SFltb (S754_zero false) x = true -> SFltb y (S754_zero false) = true ->
  signed true (SF64mul x y).
Proof.
  destruct x as [sx|[]| |[] mx ex]; try discriminate;
    destruct y as [sy|[]| |[] my ey]; try discriminate; intros _ _;
    try reflexivity.
  apply (binary_round_aux_signed true). lia.
Qed.

Lemma pos_iter_xO (m d : positive) :
  Zpos (Pos.iter xO m d) = Zpos m * 2 ^ Zpos d.
Proof.
  induction d as [|d IH] using Pos.peano_ind.
  - cbn [Pos.iter]. lia.
  - rewrite Pos.iter_succ, Pos2Z.inj_xO, IH, Pos2Z.inj_succ, Z.pow_succ_r by lia.
    ring.
Qed.

Lemma shl_align_fst (m : positive) (e e' : Z) :
  e' <= e -> Zpos (fst (shl_align m e e')) = Zpos m * 2 ^ (e - e').
Proof.
  intros He. unfold shl_align.
  destruct (e' - e) as [|d|d] eqn:Hd; cbn [fst]; try lia.
  - replace (e - e') with 0 by lia. lia.
  - rewrite pos_iter_xO. f_equal. f_equal. lia.
Qed.

Lemma shl_align_snd (m : positive) (e e' : Z) :
  snd (shl_align m e e') = Z.min e e'.
Proof.
  unfold shl_align. destruct (e' - e) as [|d|d] eqn:Hd; cbn [snd]; lia.
Qed.

Lemma binary_round_nonzero (s : bool) (m : positive) (e : Z) :
  -1074 <= e -> signed_nonzero s (binary_round prec emax s m e).
Proof.
  intros He. unfold binary_round.
  pose proof (shl_align_snd m e (fexp prec emax (Zpos (digits2_pos m) + e))) as Hs.
  destruct (shl_align m e _) as [mz ez]. cbn [snd] in Hs.
  apply binary_round_aux_nonzero; [lia|].
  unfold fexp, emin, prec, emax in Hs. lia.
Qed.

(** What [bounded] says about a mantissa and its exponent. *)
Lemma bounded_inv (m : positive) (e : Z) :
  bounded prec emax m e = true ->
  -1074 <= e /\ Zpos (digits2_pos m) <= 53
  /\ (-1074 < e -> Zpos (digits2_pos m) = 53).
Proof.
  unfold bounded, canonical_mantissa, fexp, emin, prec, emax.
  intros H. apply andb_prop in H as [H _]. apply Z.eqb_eq in H. lia.
Qed.

(** Two canonical mantissas, the one with the smaller exponent is the
    smaller number. *)
Lemma canonical_lt (mx my : positive) (ex ey : Z) :
  bounded prec emax mx ex = true -> bounded prec emax my ey = true ->
  ex < ey -> Zpos mx < Zpos my * 2 ^ (ey - ex).
Proof.
  intros Hx Hy Hlt.
  apply bounded_inv in Hx as (Hex & Hdx & _).
  apply bounded_inv in Hy as (_ & _ & Hdy).
  specialize (Hdy ltac:(lia)).
  pose proof (digits2_pos_bounds mx) as [_ Hmx].
  pose proof (digits2_pos_bounds my) as [Hmy _].
  rewrite Hdy in Hmy.
  assert (H53 : 2 ^ Zpos (digits2_pos mx) <= 2 ^ 53)
    by (apply Z.pow_le_mono_r; lia).
  assert (H2 : 2 ^ 1 <= 2 ^ (ey - ex)) by (apply Z.pow_le_mono_r; lia).
  change (2 ^ 1) with 2 in H2. change (2 ^ (53 - 1)) with 4503599627370496 in Hmy.
  change (2 ^ 53) with 9007199254740992 in H53.
  nia.
Qed.

Lemma SFsub_lt_neg (x y : spec_float) :
  valid_binary x = true -> valid_binary y = true ->
  SFltb x y = true -> signed_nonzero true (SF64sub x y).
Proof.
  unfold SFltb, SF64sub.
  destruct x as [sx|sx| |sx mx ex], y as [sy|sy| |sy my ey];
    cbn [SFcompare SFsub valid_binary signed_nonzero negb];
    intros Vx Vy H; try discriminate;
    try (destruct sx; try discriminate; try reflexivity;
         destruct sy; try discriminate; reflexivity);
    try (destruct sy; try discriminate; reflexivity).
  pose proof (bounded_inv _ _ Vx) as (Hex & _).
  pose proof (bounded_inv _ _ Vy) as (Hey & _).
  set (ez := Z.min ex ey).
  pose proof (shl_align_fst mx ex ez ltac:(lia)) as HX.
  pose proof (shl_align_fst my ey ez ltac:(lia)) as HY.
  set (X := Zpos (fst (shl_align mx ex ez))) in *.
  set (Y := Zpos (fst (shl_align my ey ez))) in *.
  assert (HM : cond_Zopp sx X - cond_Zopp sy Y < 0).
  { destruct sx, sy; cbn [cond_Zopp]; try discriminate; try lia.
    - (* both negative *)
      destruct (ex ?= ey) eqn:He; try discriminate.
      + apply Z.compare_eq in He. subst ey.
        replace (ex - ez) with 0 in * by lia.
        destruct (Pos.compare_cont Eq mx my) eqn:Hm; try discriminate.
        rewrite Pos.compare_gt_iff in Hm. lia.
      + rewrite Z.compare_gt_iff in He.
        pose proof (canonical_lt my mx ey ex Vy Vx He) as Hlt.
        replace (ey - ez) with 0 in * by lia.
        replace (ex - ez) with (ex - ey) in * by lia. lia.
    - (* both positive *)
      destruct (ex ?= ey) eqn:He; try discriminate.
      + apply Z.compare_eq in He. subst ey.
        replace (ex - ez) with 0 in * by lia.
        destruct (Pos.compare_cont Eq mx my) eqn:Hm; try discriminate.
        rewrite Pos.compare_lt_iff in Hm. lia.
      + rewrite Z.compare_lt_iff in He.
        pose proof (canonical_lt mx my ex ey Vx Vy He) as Hlt.
        replace (ex - ez) with 0 in * by lia.
        replace (ey - ez) with (ey - ex) in * by lia. lia. }
  destruct (cond_Zopp sx X - cond_Zopp sy Y) as [|p|p]; try lia.
  cbn [binary_normalize]. apply binary_round_nonzero. lia.
Qed.

Lemma SFadd_comm (x y : spec_float) : SF64add x y = SF64add y x.
Proof.
  unfold SF64add.
  destruct x as [sx|sx| |sx mx ex], y as [sy|sy| |sy my ey];
    try reflexivity; try (destruct sx, sy; reflexivity).
  cbn [SFadd]. rewrite (Z.min_comm ey ex). f_equal. apply Z.add_comm.
Qed.

Lemma add_comm (x y : float) : (x + y = y + x)%float.
Proof.
  apply Prim2SF_inj. rewrite !add_spec. apply SFadd_comm.
Qed.

Lemma SFcompare_antisym (x y : spec_float) :
  SFcompare y x = option_map CompOpp (SFcompare x y).
Proof.
  destruct x as [sx|sx| |sx mx ex], y as [sy|sy| |sy my ey];
    try reflexivity; try (destruct sx; reflexivity);
    try (destruct sy; reflexivity); try (destruct sx, sy; reflexivity).
  cbn [SFcompare option_map]. f_equal.
  assert (Hm : Pos.compare_cont Eq my mx = CompOpp (Pos.compare_cont Eq mx my))
    by (now rewrite Pos.compare_cont_antisym).
  destruct sx, sy; try reflexivity;
    rewrite (Z.compare_antisym ex ey), Hm;
    destruct (ex ?= ey)%Z; cbn [CompOpp]; try reflexivity;
    now rewrite CompOpp_involutive.
Qed.

Lemma ltb_asym (x y : float) : (x <? y)%float = true -> (y <? x)%float = false.
Proof.
  rewrite !ltb_spec. unfold SFltb. rewrite (SFcompare_antisym (Prim2SF x) (Prim2SF y)).
  destruct (SFcompare (Prim2SF x) (Prim2SF y)) as [[]|]; cbn; congruence.
Qed.

Lemma eqb_not_ltb (x y : float) : (x =? y)%float = true -> (y <? x)%float = false.
Proof.
  rewrite FloatAxioms.eqb_spec, ltb_spec. unfold SFeqb, SFltb.
  rewrite (SFcompare_antisym (Prim2SF x) (Prim2SF y)).
  destruct (SFcompare (Prim2SF x) (Prim2SF y)) as [[]|]; cbn; congruence.
Qed.

Lemma is_zero_cases (x : float) : is_zero x = true -> x = 0%float \/ x = neg_zero.
Proof.
  unfold is_zero. rewrite FloatAxioms.eqb_spec.
  intros H. rewrite <- (SF2Prim_Prim2SF x).
  destruct (Prim2SF x) as [[]|[]| |[] m e]; cbn in H; try discriminate; auto.
Qed.


Lemma signed_nonzero_ltb (x : float) :
  signed_nonzero true (Prim2SF x) -> (x <? 0)%float = true.
Proof.
  rewrite ltb_spec. change (Prim2SF 0) with (S754_zero false).
  destruct (Prim2SF x) as [s|s| |s m e]; cbn; intros H;
    try contradiction; now subst s.
Qed.

Lemma sub_lt_neg (x y : float) :
  (x <? y)%float = true -> (x - y <? 0)%float = true.
Proof.
  rewrite ltb_spec. intros H. apply signed_nonzero_ltb. rewrite sub_spec.
  apply SFsub_lt_neg; auto using Prim2SF_valid.
Qed.

Lemma mul_pos_neg (x y : float) :
  (0 <? x)%float = true -> (y <? 0)%float = true ->
  (x * y <? 0)%float = true \/ (x * y)%float = neg_zero.
Proof.
  intros Hx Hy. rewrite ltb_spec in Hx, Hy.
  change (Prim2SF 0) with (S754_zero false) in Hx, Hy.
  pose proof (SFmul_pos_neg _ _ Hx Hy) as H.
  rewrite <- mul_spec in H.
  destruct (Prim2SF (x * y)) as [s|s| |s m e] eqn:E; cbn in H;
    try contradiction; subst s.
  - right. rewrite <- (SF2Prim_Prim2SF (x * y)), E. reflexivity.
  - left. apply signed_nonzero_ltb. now rewrite E.
  - left. apply signed_nonzero_ltb. now rewrite E.
Qed.

(** ** Arithmetic on zeros *)

Local Open Scope float_scope.

Ltac zero_cases H := destruct (is_zero_cases _ H) as [-> | ->].

Lemma is_finite_SF (c : float) :
  is_finite c = true ->
  match Prim2SF c with S754_zero _ | S754_finite _ _ _ => True | _ => False end.
Proof.
  unfold is_finite, is_nan, is_infinity.
  rewrite !FloatAxioms.eqb_spec, abs_spec.
  change (Prim2SF infinity) with (S754_infinity false).
  destruct (Prim2SF c) as [s|[]| |s m e]; cbn; try discriminate; auto.
Qed.

Lemma zero_mul (x c : float) :
  is_zero x = true -> is_finite c = true -> is_zero (x * c) = true.
Proof.
  intros Hx Hc. apply is_finite_SF in Hc.
  unfold is_zero. rewrite FloatAxioms.eqb_spec, mul_spec.
  zero_cases Hx;
    [change (Prim2SF 0) with (S754_zero false)
    |change (Prim2SF neg_zero) with (S754_zero true);
     change (Prim2SF 0) with (S754_zero false)];
    destruct (Prim2SF c) as [s|s| |s m e]; try contradiction; reflexivity.
Qed.

Lemma zero_finite (x : float) : is_zero x = true -> is_finite x = true.
Proof. intros H. zero_cases H; reflexivity. Qed.

Lemma zero_div_100 (x : float) : is_zero x = true -> is_zero (x / 100) = true.
Proof. intros H. zero_cases H; reflexivity. Qed.

Lemma zero_add (x y : float) :
  is_zero x = true -> is_zero y = true -> is_zero (x + y) = true.
Proof. intros Hx Hy. zero_cases Hx; zero_cases Hy; reflexivity. Qed.

Lemma zero_sub (x y : float) :
  is_zero x = true -> is_zero y = true -> is_zero (x - y) = true.
Proof. intros Hx Hy. zero_cases Hx; zero_cases Hy; reflexivity. Qed.

Lemma fee_add_zero (z : float) : is_zero z = true -> 10000 + z = 10000.
Proof. intros H. zero_cases H; reflexivity. Qed.

Lemma zero_sub_fee (z : float) : is_zero z = true -> z - 10000 = -10000.
Proof. intros H. zero_cases H; reflexivity. Qed.

Lemma zero_add_loss (x y : float) :
  is_zero x = true -> is_zero y = true -> x + -10000 + y = -10000.
Proof. intros Hx Hy. zero_cases Hx; zero_cases Hy; reflexivity. Qed.

Create HintDb zeros.
#[export] Hint Resolve zero_mul zero_finite zero_div_100 zero_add zero_sub : zeros.
#[export] Hint Extern 1 (is_finite _ = true) => reflexivity : zeros.

End FloatFacts.

(** * The claims *)

Import FloatFacts.

(** ** [parseFloat] on a few texts *)

Example parseFloat_empty : JS.parseFloat "" = nan.
Proof. reflexivity. Qed.

Example parseFloat_letters : JS.parseFloat "abc" = nan.
Proof. reflexivity. Qed.

Example parseFloat_prefix : JS.parseFloat "  12.5kg" = 12.5.
Proof. reflexivity. Qed.

Example parseFloat_fraction : JS.parseFloat "0.05" = 0.05.
Proof. reflexivity. Qed.

Example parseFloat_exponent : JS.parseFloat "-.5e-1" = -0.05.
Proof. reflexivity. Qed.

Example parseFloat_infinity : JS.parseFloat "Infinity" = infinity.
Proof. reflexivity. Qed.

Example parseFloat_neg_zero :
  JS.parseFloat "-0" = neg_zero /\ JS.or_else (JS.parseFloat "-0") 0 = 0.
Proof. split; reflexivity. Qed.

(** ** The ROI engine *)

Lemma forallb_fieldNames (P : string -> bool) :
  forallb P fieldNames = true ->
  P "num_partners" = true /\ P "avg_tx_per_partner" = true
  /\ P "int_build_cost_per_partner" = true /\ P "int_maint_pct" = true
  /\ P "api_fee_per_tx" = true /\ P "compliance_cost_annual" = true
  /\ P "error_penalty_rate" = true /\ P "error_rate_legacy" = true
  /\ P "error_rate_platform" = true /\ P "onboard_days_legacy" = true
  /\ P "onboard_days_platform" = true
  /\ P "daily_revenue_per_partner" = true.
Proof.
  cbn [forallb fieldNames]. rewrite !andb_true_iff. tauto.
Qed.

(** C1, as stated, fails: with the twelve fields 0 the fixed part of the
    platform subscription fee is still charged, so [costSaving] and
    [totalBenefit] are -10000 and not 0. *)
Lemma all_zero_cost_saving_not_zero :
  all_zero zeroValues = true
  /\ calculateBenefits zeroValues
     = {| totalBenefit := -10000; costSaving := -10000;
          revenueSaving := 0; riskSaving := 0 |}
  /\ is_zero (costSaving (calculateBenefits zeroValues)) = false
  /\ is_zero (totalBenefit (calculateBenefits zeroValues)) = false.
Proof. vm_compute. auto. Qed.

(** C1, amended: for every parameter set whose twelve fields are zeros,
    [calculateBenefits] returns [revenueSaving] and [riskSaving] zero,
    and [costSaving] and [totalBenefit] equal to -10000. *)
Theorem all_zero_benefits (values : Values) :
  all_zero values = true ->
  costSaving (calculateBenefits values) = -10000
  /\ totalBenefit (calculateBenefits values) = -10000
  /\ is_zero (revenueSaving (calculateBenefits values)) = true
  /\ is_zero (riskSaving (calculateBenefits values)) = true.
Proof.
  intros H. apply forallb_fieldNames in H.
  destruct H as (H1 & H2 & H3 & H4 & H5 & H6 & H7 & H8 & H9 & H10 & H11 & H12).
  assert (Hlegacy : is_zero (total (calculateLegacyCosts values)) = true)
    by (cbn [calculateLegacyCosts total]; auto 10 with zeros).
  assert (Hplatform : total (calculatePlatformCosts values) = 10000).
  { cbn [calculatePlatformCosts total].
    rewrite !fee_add_zero; auto 10 with zeros. }
  assert (Hrev : is_zero (revenueSaving (calculateBenefits values)) = true)
    by (cbn [calculateBenefits revenueSaving]; auto 10 with zeros).
  assert (Hrisk : is_zero (riskSaving (calculateBenefits values)) = true).
  { cbn [calculateBenefits riskSaving calculateLegacyCosts
         calculatePlatformCosts error_cost]. auto 10 with zeros. }
  assert (Hcost : costSaving (calculateBenefits values) = -10000).
  { cbn [calculateBenefits costSaving]. rewrite Hplatform.
    now apply zero_sub_fee. }
  repeat split; try assumption.
  change (totalBenefit (calculateBenefits values))
    with (revenueSaving (calculateBenefits values)
          + costSaving (calculateBenefits values)
          + riskSaving (calculateBenefits values)).
  rewrite Hcost. now apply zero_add_loss.
Qed.

Lemma all_zero_benefits_witness :
  all_zero zeroValues = true
  /\ costSaving (calculateBenefits zeroValues) = -10000
  /\ totalBenefit (calculateBenefits zeroValues) = -10000
  /\ is_zero (revenueSaving (calculateBenefits zeroValues)) = true
  /\ is_zero (riskSaving (calculateBenefits zeroValues)) = true.
Proof.
  split; [reflexivity|]. apply (all_zero_benefits zeroValues). reflexivity.
Defined.

(** C2: for every parameter set, [costSaving] is exactly the legacy total
    minus the platform total, each total being the sum the specification
    writes out. *)
Theorem cost_saving_is_legacy_minus_platform (values : Values) :
  costSaving (calculateBenefits values)
  = legacy_total_spec values - platform_total_spec values
  /\ total (calculateLegacyCosts values) = legacy_total_spec values
  /\ total (calculatePlatformCosts values) = platform_total_spec values.
Proof. repeat split; reflexivity. Qed.

(** C3: for every parameter set, [totalBenefit] is
    [costSaving + revenueSaving + riskSaving]. *)
Theorem total_benefit_sum (values : Values) :
  totalBenefit (calculateBenefits values)
  = costSaving (calculateBenefits values)
    + revenueSaving (calculateBenefits values)
    + riskSaving (calculateBenefits values).
Proof.
  cbn [calculateBenefits totalBenefit costSaving revenueSaving riskSaving].
  f_equal. apply add_comm.
Qed.

(** C4, as stated, fails: with the platform slower than the legacy
    integration but no partner, [revenueSaving] is a zero and not a
    negative number; with a partner count below zero it is positive. *)
Lemma revenue_saving_zero_partners :
  JS.gt slowPlatformNoPartner.["onboard_days_platform"]
        slowPlatformNoPartner.["onboard_days_legacy"] = true
  /\ revenueSaving (calculateBenefits slowPlatformNoPartner) = neg_zero
  /\ (revenueSaving (calculateBenefits slowPlatformNoPartner) <? 0) = false
  /\ JS.gt slowPlatformMinusOne.["onboard_days_platform"]
           slowPlatformMinusOne.["onboard_days_legacy"] = true
  /\ revenueSaving (calculateBenefits slowPlatformMinusOne) = 20000
  /\ (revenueSaving (calculateBenefits slowPlatformMinusOne) <? 0) = false.
Proof. vm_compute. repeat split. Qed.

(** C4, amended: [revenueSaving] is
    [num_partners * daily_revenue_per_partner * (onboard_days_legacy -
    onboard_days_platform)] and enters [totalBenefit] as it is; when
    [onboard_days_platform > onboard_days_legacy] the time saved is
    negative, and when moreover [num_partners * daily_revenue_per_partner]
    is positive [revenueSaving] is negative, or the negative zero if the
    product underflows. *)
Theorem revenue_saving_unclamped (values : Values) :
  let r := calculateBenefits values in
  let time_saved :=
    values.["onboard_days_legacy"] - values.["onboard_days_platform"] in
  let per_day :=
    values.["num_partners"] * values.["daily_revenue_per_partner"] in
  revenueSaving r = per_day * time_saved
  /\ totalBenefit r = revenueSaving r + costSaving r + riskSaving r
  /\ (JS.gt values.["onboard_days_platform"] values.["onboard_days_legacy"]
      = true ->
      (time_saved <? 0) = true
      /\ ((0 <? per_day) = true ->
          (revenueSaving r <? 0) = true \/ revenueSaving r = neg_zero)).
Proof.
  cbn zeta. split; [reflexivity|]. split; [reflexivity|].
  intros Hlt. pose proof (sub_lt_neg _ _ Hlt) as Hneg.
  split; [exact Hneg|]. intros Hpos.
  exact (mul_pos_neg _ _ Hpos Hneg).
Qed.

Lemma revenue_saving_unclamped_witness :
  JS.gt slowPlatform.["onboard_days_platform"]
        slowPlatform.["onboard_days_legacy"] = true
  /\ (0 <? slowPlatform.["num_partners"]
           * slowPlatform.["daily_revenue_per_partner"]) = true
  /\ revenueSaving (calculateBenefits slowPlatform) = -100000
  /\ totalBenefit (calculateBenefits slowPlatform) = 52400
  /\ ((revenueSaving (calculateBenefits slowPlatform) <? 0) = true
      \/ revenueSaving (calculateBenefits slowPlatform) = neg_zero).
Proof.
  split; [reflexivity|]. split; [reflexivity|].
  split; [reflexivity|]. split; [reflexivity|].
  destruct (revenue_saving_unclamped slowPlatform) as (_ & _ & H).
  destruct (H eq_refl) as [_ H']. exact (H' eq_refl).
Defined.

(** C5: on the default preset the legacy total is 170000, the platform
    total 40100, and [calculateBenefits] returns [costSaving = 129900],
    [revenueSaving = 250000], [riskSaving = 22500] and
    [totalBenefit = 402400]. *)
Theorem default_preset_benefits :
  defaultValues
  = list_to_map
      [ ("num_partners"%string, 5); ("avg_tx_per_partner"%string, 1000);
        ("int_build_cost_per_partner"%string, 15000);
        ("int_maint_pct"%string, 20); ("api_fee_per_tx"%string, 0.05);
        ("compliance_cost_annual"%string, 50000);
        ("error_penalty_rate"%string, 15); ("error_rate_legacy"%string, 3);
        ("error_rate_platform"%string, 0.5);
        ("onboard_days_legacy"%string, 30);
        ("onboard_days_platform"%string, 5);
        ("daily_revenue_per_partner"%string, 2000) ]
  /\ total (calculateLegacyCosts defaultValues) = 170000
  /\ total (calculatePlatformCosts defaultValues) = 40100
  /\ calculateBenefits defaultValues
     = {| totalBenefit := 402400; costSaving := 129900;
          revenueSaving := 250000; riskSaving := 22500 |}.
Proof. repeat split; reflexivity. Qed.

(** ** The handlers *)

Lemma or_else_zero_not_nan (x : float) : is_nan (JS.or_else x 0) = false.
Proof.
  unfold JS.or_else, JS.truthy.
  destruct (is_nan x) eqn:E; cbn [orb negb]; [reflexivity|].
  destruct (is_zero x); cbn [negb]; [reflexivity|exact E].
Qed.

Lemma or_else_zero_nan (x : float) : is_nan x = true -> JS.or_else x 0 = 0.
Proof. unfold JS.or_else, JS.truthy. now intros ->. Qed.

Lemma or_else_zero_eqb (x : float) :
  is_nan x = false -> (x =? JS.or_else x 0) = true.
Proof.
  unfold JS.or_else, JS.truthy. intros E. rewrite E. cbn [orb].
  destruct (is_zero x) eqn:Z; cbn [negb]; [exact Z|].
  unfold is_nan in E. now apply negb_false_iff in E.
Qed.

(** C6: for every name and text, [handleInputChange] stores under the
    name the number [parseFloat] reads from the text, and 0 when
    [parseFloat] gives [NaN]; what is stored is never [NaN]; every other
    property keeps its value (after the conservative preset was selected,
    the conservative value); and the scenario becomes "custom" whatever
    was stored. *)
Theorem handleInputChange_spec (name value : string) (st : State) :
  let st' := handleInputChange name value st in
  let parsed := JS.parseFloat value in
  let stored := (calculatorValues st').[name] in
  calculatorValues st' = <[name := stored]> (calculatorValues st)
  /\ is_nan stored = false
  /\ (is_nan parsed = true -> stored = 0)
  /\ (is_nan parsed = false -> (parsed =? stored) = true)
  /\ (JS.truthy parsed = true -> stored = parsed)
  /\ (forall k, k <> name ->
      calculatorValues st' !! k = calculatorValues st !! k)
  /\ (forall st0 k, k <> name ->
      calculatorValues
        (handleInputChange name value (handleScenarioChange "conservative" st0))
        !! k = scenarios.conservative !! k)
  /\ scenario st' = "custom"%string
  /\ roiResults st' = roiResults st
  /\ selectedMetric st' = selectedMetric st.
Proof.
  cbn zeta.
  assert (E : (calculatorValues (handleInputChange name value st)).[name]
              = JS.or_else (JS.parseFloat value) 0).
  { unfold prop. cbn. now rewrite lookup_insert_eq. }
  rewrite E. repeat split.
  - apply or_else_zero_not_nan.
  - apply or_else_zero_nan.
  - apply or_else_zero_eqb.
  - unfold JS.or_else. now intros ->.
  - intros k Hk. cbn. now rewrite lookup_insert_ne.
  - intros st0 k Hk. cbn. now rewrite lookup_insert_ne.
Qed.

Lemma handleInputChange_spec_witness :
  JS.parseFloat "" = nan
  /\ (calculatorValues
        (handleInputChange "num_partners" ""
           (handleScenarioChange "conservative" initialState))).["num_partners"]
     = 0
  /\ calculatorValues
       (handleInputChange "num_partners" ""
          (handleScenarioChange "conservative" initialState))
       !! "avg_tx_per_partner"%string
     = Some 500
  /\ calculatorValues (handleInputChange "num_partners" "5" initialState)
     = calculatorValues initialState
  /\ scenario (handleInputChange "num_partners" "5" initialState)
     = "custom"%string.
Proof.
  split; [reflexivity|].
  pose proof (handleInputChange_spec "num_partners" ""
                (handleScenarioChange "conservative" initialState)) as H.
  cbn zeta in H. destruct H as (_ & _ & H0 & _ & _ & _ & Hc & _).
  split; [exact (H0 eq_refl)|].
  split.
  - rewrite (Hc initialState "avg_tx_per_partner"%string); [reflexivity|discriminate].
  - split; [|reflexivity]. apply insert_id. reflexivity.
Defined.

(** C7: for each of "default", "conservative" and "optimistic",
    [handleScenarioChange] puts the preset of that name in
    [calculatorValues], sets [scenario] to the name and leaves
    [roiResults] as it was; the two scenario presets agree with the
    default preset outside [num_partners], [avg_tx_per_partner] and
    [daily_revenue_per_partner]. *)
Theorem handleScenarioChange_presets (st : State) :
  (calculatorValues (handleScenarioChange "default" st) = defaultValues
   /\ scenario (handleScenarioChange "default" st) = "default"%string
   /\ roiResults (handleScenarioChange "default" st) = roiResults st)
  /\ (calculatorValues (handleScenarioChange "conservative" st)
      = scenarios.conservative
      /\ scenario (handleScenarioChange "conservative" st)
         = "conservative"%string
      /\ roiResults (handleScenarioChange "conservative" st) = roiResults st)
  /\ (calculatorValues (handleScenarioChange "optimistic" st)
      = scenarios.optimistic
      /\ scenario (handleScenarioChange "optimistic" st) = "optimistic"%string
      /\ roiResults (handleScenarioChange "optimistic" st) = roiResults st)
  /\ (forall k : string, k ∉ overridden ->
      scenarios.conservative !! k = defaultValues !! k
      /\ scenarios.optimistic !! k = defaultValues !! k)
  /\ map (fun k => (defaultValues !! k, scenarios.conservative !! k,
                    scenarios.optimistic !! k)) overridden
     = [ (Some 5, Some 3, Some 10); (Some 1000, Some 500, Some 2000);
         (Some 2000, Some 1000, Some 3000) ].
Proof.
  repeat split; try reflexivity.
  - unfold scenarios.conservative.
    apply not_elem_of_cons in H as [H1 H].
    apply not_elem_of_cons in H as [H2 H].
    apply not_elem_of_cons in H as [H3 _].
    now rewrite !lookup_insert_ne.
  - unfold scenarios.optimistic.
    apply not_elem_of_cons in H as [H1 H].
    apply not_elem_of_cons in H as [H2 H].
    apply not_elem_of_cons in H as [H3 _].
    now rewrite !lookup_insert_ne.
Qed.

(** C8: [toggleMetricDetail key] clears [selectedMetric] when it is
    [key] and sets it to [key] otherwise; from the collapsed state two
    toggles with the same key give the state back; the toggle commutes
    with [handleCalculate], neither reads nor writes [roiResults], and
    [handleCalculate] neither reads nor writes [selectedMetric]. *)
Theorem toggleMetricDetail_spec (st : State) (key : string) :
  (selectedMetric st = Some key ->
   selectedMetric (toggleMetricDetail key st) = None)
  /\ (selectedMetric st <> Some key ->
      selectedMetric (toggleMetricDetail key st) = Some key)
  /\ (selectedMetric st = None ->
      toggleMetricDetail key (toggleMetricDetail key st) = st)
  /\ handleCalculate (toggleMetricDetail key st)
     = toggleMetricDetail key (handleCalculate st)
  /\ roiResults (toggleMetricDetail key st) = roiResults st
  /\ selectedMetric (handleCalculate st) = selectedMetric st
  /\ (forall r, toggleMetricDetail key (setRoiResults r st)
                = setRoiResults r (toggleMetricDetail key st))
  /\ (forall k, handleCalculate (setSelectedMetric k st)
                = setSelectedMetric k (handleCalculate st)).
Proof.
  destruct st as [menu values scen results sel].
  unfold toggleMetricDetail, handleCalculate, setSelectedMetric, setRoiResults.
  cbn [selectedMetric roiResults calculatorValues scenario isMenuOpen].
  repeat split; try reflexivity.
  - intros ->. now rewrite bool_decide_eq_true_2.
  - intros H. now rewrite bool_decide_eq_false_2.
  - intros ->. rewrite (bool_decide_eq_false_2 (None = Some key)) by discriminate.
    now rewrite bool_decide_eq_true_2.
Qed.

Lemma toggleMetricDetail_spec_witness :
  selectedMetric (toggleMetricDetail "costSaving" initialState)
  = Some "costSaving"%string
  /\ toggleMetricDetail "costSaving"
       (toggleMetricDetail "costSaving" initialState)
     = initialState.
Proof.
  pose proof (toggleMetricDetail_spec initialState "costSaving") as H.
  destruct H as (_ & H1 & H2 & _).
  split; [apply H1; discriminate|apply H2; reflexivity].
Defined.

(** C9, as stated, fails: after a calculation on the default values the
    total is 402400 and the grid is rendered, yet no explanation panel
    is, since no metric is selected. *)
Lemma panels_hidden_with_positive_total :
  totalBenefit (roiResults (handleCalculate initialState)) = 402400
  /\ JS.gt (totalBenefit (roiResults (handleCalculate initialState))) 0 = true
  /\ gridShown (handleCalculate initialState) = true
  /\ cardsShown (handleCalculate initialState) = metricKeys
  /\ selectedMetric (handleCalculate initialState) = None
  /\ map (detailShown (handleCalculate initialState)) metricKeys
     = [false; false; false; false].
Proof. vm_compute. repeat split. Qed.

(** C9, amended: the result grid with its four metric cards is rendered
    exactly when [roiResults.totalBenefit > 0]; the explanation panel of
    a metric is rendered exactly when the grid is and that metric is one
    of the four cards and the selected one; a negative or zero total,
    the initial one included, hides the grid and every panel even when
    the other three figures were computed. *)
Theorem grid_and_panels_shown (st : State) :
  (gridShown st = true <-> JS.gt (totalBenefit (roiResults st)) 0 = true)
  /\ (cardsShown st = metricKeys <-> gridShown st = true)
  /\ (cardsShown st = [] <-> gridShown st = false)
  /\ (forall key,
      detailShown st key = true
      <-> gridShown st = true /\ key ∈ metricKeys
          /\ selectedMetric st = Some key)
  /\ ((totalBenefit (roiResults st) <? 0) = true
      \/ (totalBenefit (roiResults st) =? 0) = true ->
      gridShown st = false /\ cardsShown st = []
      /\ forall key, detailShown st key = false)
  /\ gridShown initialState = false
  /\ roiResults lossState
     = {| totalBenefit := -7628000; costSaving := -2178000;
          revenueSaving := -5000000; riskSaving := -450000 |}
  /\ gridShown lossState = false.
Proof.
  assert (Hdetail : forall key,
            detailShown st key = true
            <-> gridShown st = true /\ key ∈ metricKeys
                /\ selectedMetric st = Some key).
  { intros key. unfold detailShown, cardsShown.
    rewrite andb_true_iff, !bool_decide_eq_true.
    destruct (gridShown st); split.
    - intros [Hk Hs]. now repeat split.
    - intros (_ & Hk & Hs). now split.
    - intros [Hk _]. now apply elem_of_nil in Hk.
    - intros (Hg & _). discriminate. }
  split; [reflexivity|].
  split; [unfold cardsShown; destruct (gridShown st); split;
          try reflexivity; discriminate|].
  split; [unfold cardsShown; destruct (gridShown st); split;
          try reflexivity; discriminate|].
  split; [exact Hdetail|].
  split; [|repeat split; reflexivity].
  intros H.
  assert (E : gridShown st = false).
  { unfold gridShown, JS.gt. destruct H as [H | H].
    - now apply ltb_asym.
    - now apply eqb_not_ltb. }
  split; [exact E|]. split; [unfold cardsShown; now rewrite E|].
  intros key. destruct (detailShown st key) eqn:D; [|reflexivity].
  apply Hdetail in D as [D _]. congruence.
Qed.

(** C10: for every name other than "conservative" and "optimistic",
    [handleScenarioChange] puts the default preset in [calculatorValues]
    and stores the name itself in [scenario]. *)
Theorem handleScenarioChange_fallback (st : State) (name : string) :
  name <> "conservative"%string -> name <> "optimistic"%string ->
  calculatorValues (handleScenarioChange name st) = defaultValues
  /\ scenario (handleScenarioChange name st) = name
  /\ roiResults (handleScenarioChange name st) = roiResults st
  /\ selectedMetric (handleScenarioChange name st) = selectedMetric st.
Proof.
  intros H1 H2. unfold handleScenarioChange.
  apply String.eqb_neq in H1, H2. rewrite H1, H2. repeat split.
Qed.

Lemma handleScenarioChange_fallback_witness :
  calculatorValues
    (handleScenarioChange "custom" (handleScenarioChange "optimistic" initialState))
  = defaultValues
  /\ scenario
       (handleScenarioChange "custom"
          (handleScenarioChange "optimistic" initialState))
     = "custom"%string.
Proof.
  destruct (handleScenarioChange_fallback
              (handleScenarioChange "optimistic" initialState) "custom")
    as (H1 & H2 & _); [discriminate|discriminate|].
  split; assumption.
Defined.

(** * Further properties of the component *)

Set Warnings "-clear-no-such-hyp".

(** ** Not-a-number *)

Module NaNFacts.

Lemma is_nan_eq (x : float) : is_nan x = true -> x = nan.
Proof.
  unfold is_nan. rewrite FloatAxioms.eqb_spec. intros H.
  rewrite <- (SF2Prim_Prim2SF x).
  destruct (Prim2SF x) as [s|s| |s m e]; [| | reflexivity |]; exfalso;
    unfold SFeqb in H; cbn [SFcompare] in H.
  - discriminate.
  - destruct s; discriminate.
  - rewrite Z.compare_refl, Pos.compare_cont_refl in H.
    destruct s; discriminate.
Qed.

Lemma mul_nan_l (x : float) : nan * x = nan.
Proof. apply Prim2SF_inj. now rewrite mul_spec. Qed.

Lemma mul_nan_r (x : float) : x * nan = nan.
Proof.
  apply Prim2SF_inj. rewrite mul_spec.
  change (Prim2SF nan) with S754_nan. now destruct (Prim2SF x).
Qed.

Lemma add_nan_l (x : float) : nan + x = nan.
Proof. apply Prim2SF_inj. now rewrite add_spec. Qed.

Lemma add_nan_r (x : float) : x + nan = nan.
Proof.
  apply Prim2SF_inj. rewrite add_spec.
  change (Prim2SF nan) with S754_nan. now destruct (Prim2SF x).
Qed.

Lemma sub_nan_l (x : float) : nan - x = nan.
Proof. apply Prim2SF_inj. now rewrite sub_spec. Qed.

Lemma sub_nan_r (x : float) : x - nan = nan.
Proof.
  apply Prim2SF_inj. rewrite sub_spec.
  change (Prim2SF nan) with S754_nan. now destruct (Prim2SF x).
Qed.

Lemma div_nan_l (x : float) : nan / x = nan.
Proof. apply Prim2SF_inj. now rewrite div_spec. Qed.

Create Rewrite HintDb nan.
#[export] Hint Rewrite mul_nan_l mul_nan_r add_nan_l add_nan_r
  sub_nan_l sub_nan_r div_nan_l : nan.

End NaNFacts.

Import NaNFacts.

(** ** What the figures are computed from *)

Lemma agree_prop (ks : list string) (v1 v2 : Values) (k : string) :
  agree ks v1 v2 -> k ∈ ks -> v1.[k] = v2.[k].
Proof.
  unfold agree, prop. rewrite Forall_forall. intros H Hk. now rewrite (H k Hk).
Qed.

Ltac same_prop H :=
  repeat match goal with
  | |- context [prop ?v ?k] =>
      lazymatch type of H with
      | agree _ v _ => rewrite (agree_prop _ _ _ k H) by set_solver
      end
  end.

(** X1: [calculateBenefits] reads the twelve fields and nothing else: two
    objects that agree on them give the same four figures. *)
Theorem calculateBenefits_reads_fields (v1 v2 : Values) :
  agree fieldNames v1 v2 -> calculateBenefits v1 = calculateBenefits v2.
Proof.
  intros H.
  unfold calculateBenefits, calculateLegacyCosts, calculatePlatformCosts.
  cbn [total error_cost]. same_prop H. reflexivity.
Qed.

Lemma calculateBenefits_reads_fields_witness :
  agree fieldNames defaultValues (<["note"%string := 7]> defaultValues)
  /\ calculateBenefits (<["note"%string := 7]> defaultValues)
     = calculateBenefits defaultValues.
Proof.
  assert (H : agree fieldNames defaultValues (<["note"%string := 7]> defaultValues))
    by (repeat constructor).
  split; [exact H|]. symmetry. exact (calculateBenefits_reads_fields _ _ H).
Defined.

(** X2: [revenueSaving] is computed from the partner count, the daily
    revenue and the two onboarding times only, and [riskSaving] from the
    partner count, the transactions, the two error rates and the penalty
    only: the integration cost typed into the third input changes
    neither. *)
Theorem revenue_and_risk_fields (v1 v2 : Values) :
  (agree revenueFields v1 v2 ->
   revenueSaving (calculateBenefits v1) = revenueSaving (calculateBenefits v2))
  /\ (agree riskFields v1 v2 ->
      riskSaving (calculateBenefits v1) = riskSaving (calculateBenefits v2))
  /\ (forall value st,
      let st' :=
        handleCalculate
          (handleInputChange "int_build_cost_per_partner" value st) in
      revenueSaving (roiResults st')
      = revenueSaving (roiResults (handleCalculate st))
      /\ riskSaving (roiResults st')
         = riskSaving (roiResults (handleCalculate st))).
Proof.
  assert (Hrev : forall a b, agree revenueFields a b ->
            revenueSaving (calculateBenefits a)
            = revenueSaving (calculateBenefits b)).
  { intros a b H. cbn [calculateBenefits revenueSaving]. same_prop H.
    reflexivity. }
  assert (Hrisk : forall a b, agree riskFields a b ->
            riskSaving (calculateBenefits a) = riskSaving (calculateBenefits b)).
  { intros a b H.
    cbn [calculateBenefits riskSaving calculateLegacyCosts
         calculatePlatformCosts error_cost].
    same_prop H. reflexivity. }
  split; [apply Hrev|]. split; [apply Hrisk|].
  intros value st. cbn zeta. cbn [handleCalculate setRoiResults roiResults].
  split; [apply Hrev|apply Hrisk]; unfold agree; cbn;
    repeat constructor; now rewrite lookup_insert_ne.
Qed.

Lemma revenue_and_risk_fields_witness :
  revenueSaving
    (calculateBenefits (<["int_build_cost_per_partner"%string := 1]> defaultValues))
  = 250000
  /\ riskSaving
       (calculateBenefits (<["int_build_cost_per_partner"%string := 1]> defaultValues))
     = 22500
  /\ costSaving
       (calculateBenefits (<["int_build_cost_per_partner"%string := 1]> defaultValues))
     = 39906.
Proof.
  destruct (revenue_and_risk_fields
              (<["int_build_cost_per_partner"%string := 1]> defaultValues)
              defaultValues) as (H1 & H2 & _).
  split; [rewrite H1; [reflexivity|repeat constructor]|].
  split; [rewrite H2; [reflexivity|repeat constructor]|reflexivity].
Defined.

(** X3: a field that is missing or [NaN] poisons the total: whichever of
    the twelve it is, [totalBenefit] comes out [NaN] and the grid is not
    rendered after a calculation. *)
Theorem missing_field_hides_grid (st : State) (k : string) :
  k ∈ fieldNames ->
  (calculatorValues st !! k = None \/ calculatorValues st !! k = Some nan) ->
  totalBenefit (calculateBenefits (calculatorValues st)) = nan
  /\ gridShown (handleCalculate st) = false.
Proof.
  intros Hk Hnan.
  assert (E : (calculatorValues st).[k] = nan)
    by (unfold prop; destruct Hnan as [-> | ->]; reflexivity).
  assert (T : totalBenefit (calculateBenefits (calculatorValues st)) = nan).
  { unfold calculateBenefits, calculateLegacyCosts, calculatePlatformCosts.
    cbn [total error_cost totalBenefit].
    unfold fieldNames in Hk.
    repeat (apply elem_of_cons in Hk as [-> | Hk]);
      [ .. | now apply elem_of_nil in Hk ];
      rewrite E; autorewrite with nan; reflexivity. }
  split; [exact T|].
  unfold gridShown. cbn [handleCalculate setRoiResults roiResults].
  now rewrite T.
Qed.

Lemma missing_field_hides_grid_witness :
  gridShown
    (handleCalculate
       (setCalculatorValues (delete "api_fee_per_tx"%string defaultValues)
          initialState))
  = false.
Proof.
  apply (missing_field_hides_grid
           (setCalculatorValues (delete "api_fee_per_tx"%string defaultValues)
              initialState) "api_fee_per_tx").
  - unfold fieldNames. set_solver.
  - left. reflexivity.
Defined.

(** ** How the handlers compose *)

(** X4: what a calculation shows depends on the values at that moment
    only: an earlier calculation leaves no trace, whatever event came in
    between, and calculating twice is calculating once. *)
Theorem handleCalculate_forgets (ev : Event) (st : State) :
  handleCalculate (handle ev (handleCalculate st))
  = handleCalculate (handle ev st)
  /\ handleCalculate (handleCalculate st) = handleCalculate st.
Proof.
  split; [|reflexivity].
  destruct ev as [name|name value| |key|]; try reflexivity.
  unfold handle, handleScenarioChange.
  destruct (String.eqb name "conservative"); [reflexivity|].
  destruct (String.eqb name "optimistic"); reflexivity.
Qed.

(** X5: choosing a scenario discards the edits and the scenario chosen
    before it: the state is the one the choice alone would have given. *)
Theorem handleScenarioChange_absorbs (name : string) (st : State) :
  (forall k v, handleScenarioChange name (handleInputChange k v st)
               = handleScenarioChange name st)
  /\ (forall other, handleScenarioChange name (handleScenarioChange other st)
                    = handleScenarioChange name st).
Proof.
  split.
  - intros k v. unfold handleScenarioChange.
    destruct (String.eqb name "conservative"); [reflexivity|].
    destruct (String.eqb name "optimistic"); reflexivity.
  - intros other. unfold handleScenarioChange at 1 3.
    destruct (String.eqb name "conservative");
      [|destruct (String.eqb name "optimistic")];
      unfold handleScenarioChange;
      destruct (String.eqb other "conservative");
      try destruct (String.eqb other "optimistic"); reflexivity.
Qed.

(** X6: of two edits of the same input the later one decides, and edits
    of different inputs can be made in either order. *)
Theorem handleInputChange_order (k1 k2 v1 v2 : string) (st : State) :
  handleInputChange k1 v2 (handleInputChange k1 v1 st)
  = handleInputChange k1 v2 st
  /\ (k1 <> k2 ->
      handleInputChange k2 v2 (handleInputChange k1 v1 st)
      = handleInputChange k1 v1 (handleInputChange k2 v2 st)).
Proof.
  unfold handleInputChange, updateCalculatorValues, setCalculatorValues,
    setScenario. cbn [calculatorValues isMenuOpen roiResults selectedMetric].
  split.
  - now rewrite insert_insert_eq.
  - intros Hne. f_equal. now apply insert_insert_ne.
Qed.

Lemma handleInputChange_order_witness :
  (calculatorValues
     (handleInputChange "num_partners" "7"
        (handleInputChange "avg_tx_per_partner" "9" initialState))).["num_partners"]
  = 7
  /\ handleInputChange "avg_tx_per_partner" "9"
       (handleInputChange "num_partners" "7" initialState)
     = handleInputChange "num_partners" "7"
         (handleInputChange "avg_tx_per_partner" "9" initialState).
Proof.
  split; [reflexivity|].
  apply (handleInputChange_order "num_partners" "avg_tx_per_partner" "7" "9").
  discriminate.
Defined.

(** X7: each event writes its own cells of the state and no other: only
    a calculation replaces [roiResults], only a scenario button or an
    input replaces [calculatorValues] and [scenario], only a card
    replaces [selectedMetric], only the menu button [isMenuOpen]. *)
Theorem handle_frame (ev : Event) (st : State) :
  (ev <> CalculateClick -> roiResults (handle ev st) = roiResults st)
  /\ ((forall name, ev <> ScenarioClick name) ->
      (forall name value, ev <> InputChange name value) ->
      calculatorValues (handle ev st) = calculatorValues st
      /\ scenario (handle ev st) = scenario st)
  /\ ((forall key, ev <> CardClick key) ->
      selectedMetric (handle ev st) = selectedMetric st)
  /\ (ev <> MenuClick -> isMenuOpen (handle ev st) = isMenuOpen st).
Proof.
  assert (Hs : forall name,
            roiResults (handleScenarioChange name st) = roiResults st
            /\ selectedMetric (handleScenarioChange name st) = selectedMetric st
            /\ isMenuOpen (handleScenarioChange name st) = isMenuOpen st).
  { intros name. unfold handleScenarioChange.
    destruct (String.eqb name "conservative"); [now repeat split|].
    destruct (String.eqb name "optimistic"); now repeat split. }
  destruct ev as [name|name value| |key|]; cbn [handle];
    (split; [|split; [|split]]); intros;
    try (now apply Hs); try reflexivity; try (split; reflexivity);
    try congruence; exfalso;
    match goal with
    | H : forall _, _ <> _ |- _ => now eapply H
    | H : forall _ _, _ <> _ |- _ => now eapply H
    end.
Qed.

Lemma handle_frame_witness :
  roiResults (handle (InputChange "num_partners" "9") lossState)
  = roiResults lossState
  /\ calculatorValues (handle CalculateClick initialState) = defaultValues.
Proof.
  destruct (handle_frame (InputChange "num_partners" "9") lossState) as (H1 & _).
  destruct (handle_frame CalculateClick initialState) as (_ & H2 & _).
  split; [apply H1; discriminate|].
  now destruct H2 as [H2 _]; [discriminate|discriminate|].
Defined.

(** X8: the menu button is its own inverse and does not interfere with
    the calculator: pressed once from the start it lists the five links,
    pressed twice it gives the state back, and it can be pressed before
    or after any other event with the same outcome. *)
Theorem toggleMenu_independent (ev : Event) (st : State) :
  toggleMenu (toggleMenu st) = st
  /\ toggleMenu (handle ev st) = handle ev (toggleMenu st)
  /\ (menuLinksShown st = [] -> menuLinksShown (toggleMenu st) = navLinks)
  /\ (menuLinksShown st = navLinks -> menuLinksShown (toggleMenu st) = []).
Proof.
  split; [|split].
  - destruct st as [menu values scen results sel].
    unfold toggleMenu, setIsMenuOpen. cbn. now rewrite negb_involutive.
  - destruct ev as [name|name value| |key|]; try reflexivity.
    unfold handle, handleScenarioChange.
    destruct (String.eqb name "conservative"); [reflexivity|].
    destruct (String.eqb name "optimistic"); reflexivity.
  - unfold menuLinksShown, toggleMenu. cbn.
    destruct (isMenuOpen st); split; try reflexivity; discriminate.
Qed.

Lemma toggleMenu_independent_witness :
  menuLinksShown (toggleMenu initialState) = navLinks
  /\ menuLinksShown (toggleMenu (toggleMenu initialState)) = [].
Proof.
  destruct (toggleMenu_independent MenuClick initialState) as (_ & _ & H1 & _).
  destruct (toggleMenu_independent MenuClick (toggleMenu initialState))
    as (_ & _ & _ & H2).
  split; [now apply H1|now apply H2].
Defined.

(** ** What holds in every state the page can reach *)

Lemma run_reachable (evs : list Event) : forall st st',
  reachable st -> run evs st = Some st' -> reachable st'.
Proof.
  induction evs as [|ev evs IH]; intros st st' Hst Hrun; cbn [run] in Hrun.
  - now injection Hrun as <-.
  - destruct (offered st ev) eqn:Hoff; [|discriminate].
    eapply IH; [|exact Hrun]. now constructor.
Qed.

Lemma scenario_button_cases (name : string) :
  name ∈ scenarioButtons ->
  name = "conservative"%string \/ name = "default"%string
  \/ name = "optimistic"%string.
Proof. unfold scenarioButtons. set_solver. Qed.

Lemma preset_agrees (k : string) :
  k ∉ overridden ->
  scenarios.conservative !! k = defaultValues !! k
  /\ scenarios.optimistic !! k = defaultValues !! k.
Proof.
  unfold overridden, scenarios.conservative, scenarios.optimistic. intros H.
  rewrite !lookup_insert_ne by set_solver. now split.
Qed.

Lemma results_kept (ev : Event) (st : State) :
  ev <> CalculateClick -> roiResults (handle ev st) = roiResults st.
Proof.
  destruct ev as [name|name value| |key|]; try reflexivity; try congruence.
  intros _. unfold handle, handleScenarioChange.
  destruct (String.eqb name "conservative"); [reflexivity|].
  destruct (String.eqb name "optimistic"); reflexivity.
Qed.

Lemma scenario_set (name : string) (st : State) :
  scenario (handleScenarioChange name st) = name
  /\ selectedMetric (handleScenarioChange name st) = selectedMetric st.
Proof.
  unfold handleScenarioChange.
  destruct (String.eqb name "conservative"); [now split|].
  destruct (String.eqb name "optimistic"); now split.
Qed.

(** X9: no event reaches the eight fields that have neither an input nor
    an entry in a scenario preset: in every reachable state they hold the
    default values, the daily revenue is one of the three preset figures,
    and so a calculation always counts 25 days saved per partner. *)
Theorem reachable_fixed_fields (st : State) :
  reachable st ->
  (forall k, k ∉ inputNames -> k ∉ overridden ->
             calculatorValues st !! k = defaultValues !! k)
  /\ (calculatorValues st).["daily_revenue_per_partner"] ∈ [1000; 2000; 3000]
  /\ revenueSaving (calculateBenefits (calculatorValues st))
     = (calculatorValues st).["num_partners"]
       * (calculatorValues st).["daily_revenue_per_partner"] * 25.
Proof.
  intros Hst.
  assert (H : (forall k, k ∉ inputNames -> k ∉ overridden ->
                         calculatorValues st !! k = defaultValues !! k)
              /\ (calculatorValues st).["daily_revenue_per_partner"]
                 ∈ [1000; 2000; 3000]).
  { induction Hst as [|st ev Hst [IH1 IH2] Hoff].
    - split; [reflexivity|]. cbn. set_solver.
    - destruct ev as [name|name value| |key|]; cbn [handle offered] in *;
        try (split; assumption).
      + apply bool_decide_eq_true_1, scenario_button_cases in Hoff.
        destruct Hoff as [-> | [-> | ->]];
          (split;
           [intros k _ Hk; destruct (preset_agrees k Hk) as [Hc Ho];
            first [exact Hc|exact Ho|reflexivity]
           |cbn; set_solver]).
      + apply bool_decide_eq_true_1 in Hoff. split.
        * intros k Hk1 Hk2. cbn. rewrite lookup_insert_ne by set_solver.
          now apply IH1.
        * unfold prop in *. cbn.
          rewrite lookup_insert_ne; [exact IH2|].
          unfold inputNames in Hoff. set_solver. }
  destruct H as [H1 H2]. split; [exact H1|]. split; [exact H2|].
  cbn [calculateBenefits revenueSaving]. unfold prop at 3 4.
  rewrite !H1 by (unfold inputNames, overridden; set_solver). reflexivity.
Qed.

Lemma reachable_fixed_fields_witness :
  reachable lossState
  /\ calculatorValues lossState !! "onboard_days_platform"%string
     = defaultValues !! "onboard_days_platform"%string
  /\ revenueSaving (calculateBenefits (calculatorValues lossState))
     = (calculatorValues lossState).["num_partners"]
       * (calculatorValues lossState).["daily_revenue_per_partner"] * 25.
Proof.
  assert (H : reachable lossState).
  { apply (run_reachable
             [InputChange "num_partners" "-100"; CalculateClick] initialState);
      [constructor|reflexivity]. }
  split; [exact H|].
  destruct (reachable_fixed_fields lossState H) as (H1 & _ & H3).
  split; [|exact H3].
  apply H1; unfold inputNames, overridden; rewrite !not_elem_of_cons;
    repeat split; first [discriminate|apply not_elem_of_nil].
Defined.

Lemma neg_zero_not_zero : neg_zero <> 0.
Proof. intros E. apply (f_equal Prim2SF) in E. discriminate. Qed.

Lemma or_else_zero_storable (x : float) :
  JS.truthy (JS.or_else x 0) = true \/ JS.or_else x 0 = 0.
Proof. unfold JS.or_else. destruct (JS.truthy x) eqn:E; auto. Qed.

Lemma storable_number (v : float) :
  JS.truthy v = true \/ v = 0 -> is_nan v = false /\ v <> neg_zero.
Proof.
  intros [H | ->]; [|split; [reflexivity|]].
  - unfold JS.truthy in H. apply negb_true_iff, orb_false_iff in H as [Hn Hz].
    split; [exact Hn|]. intros ->. discriminate.
  - intros E. now apply neg_zero_not_zero.
Qed.

Lemma default_fields (k : string) (v : float) :
  defaultValues !! k = Some v ->
  k ∈ fieldNames /\ (JS.truthy v = true \/ v = 0).
Proof.
  unfold defaultValues. intros H.
  apply elem_of_list_to_map_2 in H. unfold fieldNames.
  repeat (apply elem_of_cons in H as [[= -> ->] | H];
          [split; [set_solver|now left]|]).
  now apply elem_of_nil in H.
Qed.

Lemma default_has_fields (k : string) :
  k ∈ fieldNames -> is_Some (defaultValues !! k).
Proof.
  unfold fieldNames. intros H.
  repeat (apply elem_of_cons in H as [-> | H]; [now eexists|]).
  now apply elem_of_nil in H.
Qed.

Lemma well_formed_default : well_formed defaultValues.
Proof.
  split.
  - intros k. split; [|apply default_has_fields].
    intros [v Hv]. now apply default_fields in Hv.
  - intros k v Hv. now apply default_fields in Hv.
Qed.

Lemma well_formed_insert (values : Values) (k : string) (v : float) :
  well_formed values -> k ∈ fieldNames -> JS.truthy v = true \/ v = 0 ->
  well_formed (<[k := v]> values).
Proof.
  intros [Hdom Hval] Hk Hv. split.
  - intros k'. destruct (decide (k = k')) as [<- | Hne].
    + rewrite lookup_insert_eq. split; [intros _; exact Hk|now eexists].
    + rewrite lookup_insert_ne by exact Hne. apply Hdom.
  - intros k' v'. destruct (decide (k = k')) as [<- | Hne].
    + rewrite lookup_insert_eq. now intros [= <-].
    + rewrite lookup_insert_ne by exact Hne. apply Hval.
Qed.

Lemma inputNames_fields (k : string) : k ∈ inputNames -> k ∈ fieldNames.
Proof. unfold inputNames, fieldNames. set_solver. Qed.

Lemma well_formed_presets :
  well_formed scenarios.conservative /\ well_formed scenarios.optimistic.
Proof.
  unfold scenarios.conservative, scenarios.optimistic.
  split;
    do 3 (apply well_formed_insert;
            [|unfold fieldNames; set_solver|left; reflexivity]);
    apply well_formed_default.
Qed.

(** X10: in every reachable state the values object holds exactly the
    twelve fields, and none of them is [NaN] or the negative zero: the
    calculator never computes with a missing field. *)
Theorem reachable_values_well_formed (st : State) :
  reachable st ->
  (forall k, is_Some (calculatorValues st !! k) <-> k ∈ fieldNames)
  /\ (forall k, k ∈ fieldNames ->
      is_nan (calculatorValues st).[k] = false
      /\ (calculatorValues st).[k] <> neg_zero).
Proof.
  intros Hst.
  assert (H : well_formed (calculatorValues st)).
  { induction Hst as [|st ev Hst IH Hoff]; [apply well_formed_default|].
    destruct ev as [name|name value| |key|]; cbn [handle offered] in *;
      try exact IH.
    - apply bool_decide_eq_true_1, scenario_button_cases in Hoff.
      destruct Hoff as [-> | [-> | ->]];
        [apply well_formed_presets|apply well_formed_default
        |apply well_formed_presets].
    - apply bool_decide_eq_true_1, inputNames_fields in Hoff.
      apply well_formed_insert;
        [exact IH|exact Hoff|apply or_else_zero_storable]. }
  destruct H as [Hdom Hval]. split; [exact Hdom|].
  intros k Hk. apply Hdom in Hk as [v Hv]. unfold prop. rewrite Hv.
  apply storable_number. eapply Hval, Hv.
Qed.

Lemma reachable_values_well_formed_witness :
  reachable (handle (InputChange "num_partners" "-0") initialState)
  /\ (calculatorValues
        (handle (InputChange "num_partners" "-0") initialState)).["num_partners"]
     <> neg_zero.
Proof.
  assert (H : reachable (handle (InputChange "num_partners" "-0") initialState))
    by (now constructor; [constructor|]).
  split; [exact H|].
  destruct (reachable_values_well_formed _ H) as [_ H2].
  apply H2. unfold fieldNames. set_solver.
Defined.

(** X11: the scenario cell tells the truth about a preset: it is one of
    "default", "conservative", "optimistic" and "custom", and whenever it
    names a preset the values are that preset, unedited. *)
Theorem reachable_scenario_truthful (st : State) :
  reachable st ->
  scenario st ∈ ["default"; "conservative"; "optimistic"; "custom"]%string
  /\ (scenario st = "default"%string -> calculatorValues st = defaultValues)
  /\ (scenario st = "conservative"%string ->
      calculatorValues st = scenarios.conservative)
  /\ (scenario st = "optimistic"%string ->
      calculatorValues st = scenarios.optimistic).
Proof.
  induction 1 as [|st ev Hst IH Hoff].
  - cbn. repeat split; try discriminate. set_solver.
  - destruct ev as [name|name value| |key|]; cbn [handle offered] in *;
      try exact IH.
    + apply bool_decide_eq_true_1, scenario_button_cases in Hoff.
      destruct Hoff as [-> | [-> | ->]]; cbn;
        repeat split; try discriminate; set_solver.
    + cbn. repeat split; try discriminate. set_solver.
Qed.

Lemma reachable_scenario_truthful_witness :
  reachable (handle (ScenarioClick "optimistic") lossState)
  /\ calculatorValues (handle (ScenarioClick "optimistic") lossState)
     = scenarios.optimistic.
Proof.
  assert (H : reachable (handle (ScenarioClick "optimistic") lossState)).
  { apply (run_reachable
             [InputChange "num_partners" "-100"; CalculateClick;
              ScenarioClick "optimistic"] initialState);
      [constructor|reflexivity]. }
  split; [exact H|].
  destruct (reachable_scenario_truthful _ H) as (_ & _ & _ & H4).
  now apply H4.
Defined.

Lemma cardsShown_keys (st : State) (key : string) :
  key ∈ cardsShown st -> key ∈ metricKeys /\ gridShown st = true.
Proof.
  unfold cardsShown. destruct (gridShown st); [now split|].
  intros H. now apply elem_of_nil in H.
Qed.

Lemma reachable_selected (st : State) :
  reachable st ->
  selectedMetric st = None
  \/ exists key, selectedMetric st = Some key /\ key ∈ metricKeys.
Proof.
  induction 1 as [|st ev Hst IH Hoff]; [now left|].
  destruct ev as [name|name value| |key|]; cbn [handle offered] in *;
    try exact IH.
  - now rewrite (proj2 (scenario_set name st)).
  - apply bool_decide_eq_true_1, cardsShown_keys in Hoff as [Hkey _].
    unfold toggleMetricDetail. cbn.
    destruct (bool_decide (selectedMetric st = Some key)); [now left|].
    right. now exists key.
Qed.

(** X12: in every reachable state the selected metric is none or the key
    of one of the four cards; so whenever the grid is rendered a selected
    metric has its explanation open, and never two explanations are open
    at once. *)
Theorem reachable_selection (st : State) :
  reachable st ->
  (forall key, selectedMetric st = Some key -> key ∈ metricKeys)
  /\ (forall key, selectedMetric st = Some key -> gridShown st = true ->
      detailShown st key = true
      /\ cardRing st key = "ring-2 ring-blue-300"%string)
  /\ (forall k1 k2, detailShown st k1 = true -> detailShown st k2 = true ->
      k1 = k2).
Proof.
  intros Hst.
  assert (Hsel : forall key, selectedMetric st = Some key -> key ∈ metricKeys).
  { intros key Hkey. destruct (reachable_selected st Hst) as [H | (k & H & Hk)];
      congruence. }
  split; [exact Hsel|]. split.
  - intros key Hkey Hgrid. unfold detailShown, cardRing, cardsShown.
    rewrite Hgrid, (bool_decide_eq_true_2 _ Hkey).
    rewrite bool_decide_eq_true_2 by now apply Hsel. now split.
  - intros k1 k2 H1 H2. unfold detailShown in H1, H2.
    apply andb_prop in H1 as [_ H1]. apply andb_prop in H2 as [_ H2].
    apply bool_decide_eq_true_1 in H1, H2. congruence.
Qed.

Lemma reachable_selection_witness :
  reachable
    (handle (CardClick "riskSaving") (handle CalculateClick initialState))
  /\ detailShown
       (handle (CardClick "riskSaving") (handle CalculateClick initialState))
       "riskSaving" = true.
Proof.
  assert (H : reachable
                (handle (CardClick "riskSaving")
                   (handle CalculateClick initialState))).
  { apply (run_reachable [CalculateClick; CardClick "riskSaving"] initialState);
      [constructor|reflexivity]. }
  split; [exact H|].
  destruct (reachable_selection _ H) as (_ & H2 & _).
  now apply H2.
Defined.

(** X13: the results are never a mixture: in every reachable state they
    are the zeros of the start or what [calculateBenefits] gave for the
    values of some reachable state, so the total shown is always the sum
    of the three savings shown beside it. *)
Theorem reachable_results (st : State) :
  reachable st ->
  (roiResults st = roiResults initialState
   \/ exists st', reachable st'
        /\ roiResults st = calculateBenefits (calculatorValues st'))
  /\ totalBenefit (roiResults st)
     = revenueSaving (roiResults st) + costSaving (roiResults st)
       + riskSaving (roiResults st).
Proof.
  intros Hst.
  assert (H : roiResults st = roiResults initialState
              \/ exists st', reachable st'
                   /\ roiResults st = calculateBenefits (calculatorValues st')).
  { induction Hst as [|st ev Hst IH Hoff]; [now left|].
    destruct ev as [name|name value| |key|];
      try (now rewrite results_kept by discriminate).
    right. now exists st. }
  split; [exact H|].
  destruct H as [-> | (st' & _ & ->)]; reflexivity.
Qed.

Lemma reachable_results_witness :
  reachable lossState
  /\ totalBenefit (roiResults lossState)
     = revenueSaving (roiResults lossState) + costSaving (roiResults lossState)
       + riskSaving (roiResults lossState).
Proof.
  assert (H : reachable lossState).
  { apply (run_reachable
             [InputChange "num_partners" "-100"; CalculateClick] initialState);
      [constructor|reflexivity]. }
  split; [exact H|]. exact (proj2 (reachable_results lossState H)).
Defined.

(** ** What the buttons and cards look like *)

(** X14: a scenario button is filled exactly when the scenario cell
    holds its name: after a click on a button that button alone is
    filled, and after any edit of an input none of the three is, even if
    the edit restored a preset's values. *)
Theorem scenario_button_filled (st : State) (name : string) :
  (scenarioButtonClass st name
   = "bg-blue-300 text-white border border-white"%string
   <-> scenario st = name)
  /\ (scenarioButtonClass st name
      = "bg-transparent text-white border border-white"%string
      <-> scenario st <> name)
  /\ (forall clicked,
      scenarioButtonClass (handleScenarioChange clicked st) name
      = "bg-blue-300 text-white border border-white"%string
      <-> name = clicked)
  /\ (forall k v, name ∈ scenarioButtons ->
      scenarioButtonClass (handleInputChange k v st) name
      = "bg-transparent text-white border border-white"%string).
Proof.
  assert (H : forall s : State,
            (scenarioButtonClass s name
             = "bg-blue-300 text-white border border-white"%string
             <-> scenario s = name)
            /\ (scenarioButtonClass s name
                = "bg-transparent text-white border border-white"%string
                <-> scenario s <> name)).
  { intros s. unfold scenarioButtonClass.
    destruct (String.eqb_spec (scenario s) name) as [E | E]; cbn;
      split; split; try discriminate; try congruence; reflexivity. }
  split; [apply H|]. split; [apply H|]. split.
  - intros clicked. rewrite (proj1 (H _)), (proj1 (scenario_set clicked st)).
    split; congruence.
  - intros k v Hname. apply (proj2 (H _)). cbn.
    apply scenario_button_cases in Hname as [-> | [-> | ->]]; discriminate.
Qed.

Lemma scenario_button_filled_witness :
  map (scenarioButtonClass
         (handleInputChange "num_partners" "5" initialState)) scenarioButtons
  = [ "bg-transparent text-white border border-white";
      "bg-transparent text-white border border-white";
      "bg-transparent text-white border border-white" ]%string
  /\ calculatorValues (handleInputChange "num_partners" "5" initialState)
     = defaultValues.
Proof.
  split; [|apply insert_id; reflexivity].
  pose proof (fun name =>
    proj2 (proj2 (proj2 (scenario_button_filled initialState name)))
      "num_partners"%string "5"%string) as H.
  cbn [map scenarioButtons].
  rewrite !H by (unfold scenarioButtons; set_solver). reflexivity.
Defined.

(** X16: without a calculation there is nothing to see: however many
    scenario buttons, inputs and menu clicks come first, the results stay
    the zeros of the start, the grid stays hidden, no card can be clicked
    and no metric is selected. *)
Theorem no_calculation_no_grid (evs : list Event) (st : State) :
  run evs initialState = Some st ->
  CalculateClick ∉ evs ->
  roiResults st = roiResults initialState
  /\ gridShown st = false
  /\ selectedMetric st = None
  /\ (forall key, CardClick key ∉ evs).
Proof.
  assert (H : forall evs s st,
            roiResults s = roiResults initialState ->
            selectedMetric s = None ->
            run evs s = Some st -> CalculateClick ∉ evs ->
            roiResults st = roiResults initialState
            /\ selectedMetric st = None
            /\ (forall key, CardClick key ∉ evs)).
  { clear evs st. induction evs as [|ev evs IH]; intros s st Hr Hs Hrun Hnc.
    - injection Hrun as <-. repeat split; try assumption.
      intros key Hkey. now apply elem_of_nil in Hkey.
    - cbn [run] in Hrun. destruct (offered s ev) eqn:Hoff; [|discriminate].
      apply not_elem_of_cons in Hnc as [Hev Hnc].
      assert (Hcard : forall key, ev <> CardClick key).
      { intros key ->. cbn [offered] in Hoff.
        apply bool_decide_eq_true_1, cardsShown_keys in Hoff as [_ Hgrid].
        unfold gridShown in Hgrid. rewrite Hr in Hgrid. discriminate. }
      destruct (IH (handle ev s) st) as (H1 & H2 & H3); try assumption.
      + now rewrite results_kept.
      + destruct ev as [name|name value| |key|]; cbn [handle];
          first [ assumption | congruence
                | now rewrite (proj2 (scenario_set _ s))
                | now destruct (Hcard key) ].
      + repeat split; try assumption. intros key Hkey.
        apply elem_of_cons in Hkey as [Hkey | Hkey];
          [now apply (Hcard key)|now apply (H3 key)]. }
  intros Hrun Hnc.
  destruct (H evs initialState st eq_refl eq_refl Hrun Hnc) as (H1 & H2 & H3).
  repeat split; try assumption. unfold gridShown. now rewrite H1.
Qed.

Lemma no_calculation_no_grid_witness :
  run [ScenarioClick "optimistic"; InputChange "num_partners" "50"; MenuClick]
    initialState
  = Some (toggleMenu
            (handleInputChange "num_partners" "50"
               (handleScenarioChange "optimistic" initialState)))
  /\ gridShown
       (toggleMenu
          (handleInputChange "num_partners" "50"
             (handleScenarioChange "optimistic" initialState)))
     = false
  /\ run [CardClick "costSaving"] initialState = None.
Proof.
  split; [reflexivity|]. split; [|reflexivity].
  refine (proj1 (proj2 (no_calculation_no_grid
    [ScenarioClick "optimistic"; InputChange "num_partners" "50"; MenuClick]
    _ eq_refl _))).
  intros H. repeat (apply elem_of_cons in H as [H | H]; [discriminate|]).
  now apply elem_of_nil in H.
Defined.
